(** * Trash-day address resolution (mycity/intents/trash_intent.py)

    A shallow embedding of the address-resolution engine of the trash-day
    intent: the postal-code index ([find_unique_zipcodes]), the
    disambiguation of suggestion results ([get_address_api_info]), the
    address validator ([validate_found_address]), the schedule fetcher
    ([get_trash_day_data]) with its in-place rename of the request
    parameters, the schedule parser ([get_trash_days_from_trash_data]),
    the speech formatter ([build_speech_from_list_of_days]), the pipeline
    ([get_trash_and_recycling_days]) and the zip-code lines of the intent
    handler [get_trash_day_info].

    Modelling conventions.
    - Python strings are [string], read as sequences of the code points
      0..255; the regular expressions and [str] methods work on
      [list ascii].
    - JSON payloads are the inductive [json]; a JSON object / Python dict is
      an association list in insertion order (a dict has no duplicate keys).
    - Raised exceptions are the [Err] branch of the [result] monad.
    - The HTTP services are functions from the request to a [Response]
      (status code and decoded JSON body); the external street-address
      tokenizer is a function [string -> ParsedAddress].
    - The dict passed to [get_trash_day_data] is a location of a heap, so
      that the caller observes the mutation done by the callee. *)

From Stdlib Require Import String Ascii List ZArith Bool Lia.
Import ListNotations.
Open Scope string_scope.
Set Warnings "-register-all".

(* ------------------------------------------------------------------ *)
(** ** Exceptions and the result monad *)

Inductive exn :=
| InvalidAddressError
| BadAPIResponse
| MultipleAddressError
| KeyError
| TypeError
| AttributeError
| IndexError.

Inductive result (A : Type) :=
| Ok (a : A)
| Err (e : exn).
Arguments Ok {A} a.
Arguments Err {A} e.

Definition bind {A B} (m : result A) (f : A -> result B) : result B :=
  match m with
  | Ok a => f a
  | Err e => Err e
  end.

Notation "x <- m ;; k" := (bind m (fun x => k))
  (at level 61, m at next level, right associativity).

(* ------------------------------------------------------------------ *)
(** ** JSON values *)

Inductive json :=
| JNull
| JBool (b : bool)
| JNum (z : Z)
| JStr (s : string)
| JArr (l : list json)
| JObj (fs : list (string * json)).

Definition dict := list (string * json).

Fixpoint dict_lookup (k : string) (d : dict) : option json :=
  match d with
  | [] => None
  | (k', v) :: d' => if String.eqb k k' then Some v else dict_lookup k d'
  end.

(** [k in d] *)
Definition dict_mem (k : string) (d : dict) : bool :=
  match dict_lookup k d with Some _ => true | None => false end.

(** [d.pop(k)]: removes the entry of [k] and returns its value. *)
Fixpoint dict_pop (k : string) (d : dict) : option (json * dict) :=
  match d with
  | [] => None
  | (k', v) :: d' =>
      if String.eqb k k' then Some (v, d')
      else match dict_pop k d' with
           | Some (w, d'') => Some (w, (k', v) :: d'')
           | None => None
           end
  end.

(** [d[k] = v]: replaces the value in place, or appends a new entry. *)
Fixpoint dict_setitem (k : string) (v : json) (d : dict) : dict :=
  match d with
  | [] => [(k, v)]
  | (k', w) :: d' =>
      if String.eqb k k' then (k', v) :: d' else (k', w) :: dict_setitem k v d'
  end.

(** [x[k]] for a string key: a dict looks the key up (KeyError when it is
    missing); a list, a string, a number or None is not indexable by a
    string (TypeError). *)
Definition getitem (x : json) (k : string) : result json :=
  match x with
  | JObj fs => match dict_lookup k fs with
               | Some v => Ok v
               | None => Err KeyError
               end
  | _ => Err TypeError
  end.

(** Python truthiness of a JSON value ([not x]). *)
Definition truthy (x : json) : bool :=
  match x with
  | JNull => false
  | JBool b => b
  | JNum z => negb (Z.eqb z 0)
  | JStr s => negb (String.eqb s "")
  | JArr l => match l with [] => false | _ => true end
  | JObj fs => match fs with [] => false | _ => true end
  end.

(** An HTTP response: [status_code] and the decoded [json()] body. *)
Record Response := mkResponse { status_code : Z; body : json }.

(** [requests.codes.ok] *)
Definition codes_ok : Z := 200.

(* ------------------------------------------------------------------ *)
(** ** [re.search('\d{5}', s).group(0)] *)

Definition is_digit (c : ascii) : bool :=
  let n := nat_of_ascii c in (Nat.leb 48 n) && (Nat.leb n 57).

(** A five-digit run at the head of the input. *)
Definition five_digits_at (s : list ascii) : option (list ascii) :=
  match s with
  | c1 :: c2 :: c3 :: c4 :: c5 :: _ =>
      if is_digit c1 && is_digit c2 && is_digit c3 && is_digit c4 && is_digit c5
      then Some [c1; c2; c3; c4; c5] else None
  | _ => None
  end.

(** [re.search('\d{5}', s)]: the leftmost match, or None. *)
Fixpoint re_search_5digits (s : list ascii) : option (list ascii) :=
  match five_digits_at s with
  | Some m => Some m
  | None => match s with
            | [] => None
            | _ :: s' => re_search_5digits s'
            end
  end.

(** [.group(0)] on the search result: [None.group] raises AttributeError. *)
Definition match_group0 (m : option (list ascii)) : result string :=
  match m with
  | Some g => Ok (string_of_list_ascii g)
  | None => Err AttributeError
  end.

(** [re.search] needs a [str] argument. *)
Definition as_str (x : json) : result string :=
  match x with
  | JStr s => Ok s
  | _ => Err TypeError
  end.

(* ------------------------------------------------------------------ *)
(** ** [find_unique_zipcodes] *)

(** The PostalCodeIndex: zip code -> indexes, in insertion order. *)
Definition zip_index := list (string * list nat).

Fixpoint zip_lookup (k : string) (idx : zip_index) : option (list nat) :=
  match idx with
  | [] => None
  | (k', v) :: idx' => if String.eqb k k' then Some v else zip_lookup k idx'
  end.

(** [found_zip_codes[zip_code].append(index)] when the key is present,
    [found_zip_codes[zip_code] = [index]] otherwise. *)
Fixpoint zip_add (k : string) (i : nat) (idx : zip_index) : zip_index :=
  match idx with
  | [] => [(k, [i])]
  | (k', v) :: idx' =>
      if String.eqb k k' then (k', app v [i]) :: idx' else (k', v) :: zip_add k i idx'
  end.

(** The loop body over [enumerate(address_request_json)], from [index]. *)
Fixpoint find_unique_zipcodes_loop (index : nat) (l : list json)
    (found_zip_codes : zip_index) : result zip_index :=
  match l with
  | [] => Ok found_zip_codes
  | address_info :: l' =>
      name <- getitem address_info "name" ;;
      s <- as_str name ;;
      zip_code <- match_group0 (re_search_5digits (list_ascii_of_string s)) ;;
      let found_zip_codes :=
        if negb (String.eqb zip_code "") then zip_add zip_code index found_zip_codes
        else found_zip_codes in
      find_unique_zipcodes_loop (S index) l' found_zip_codes
  end.

Definition find_unique_zipcodes (address_request_json : list json) : result zip_index :=
  find_unique_zipcodes_loop 0 address_request_json [].

(* ------------------------------------------------------------------ *)
(** ** [get_address_api_info] *)

(** [result_json[i]] on the decoded suggestion list. *)
Definition list_getitem (l : list json) (i : nat) : result json :=
  match nth_error l i with
  | Some x => Ok x
  | None => Err IndexError
  end.

(** [unique_zip_codes[provided_zip_code][0]] *)
Definition first_index (is : list nat) : result nat :=
  match is with
  | i :: _ => Ok i
  | [] => Err IndexError
  end.

(** [enumerate(result_json)] inside [find_unique_zipcodes]: the service
    answers a JSON array; for any other truthy body (a dict, a string, a
    number, [true]) the loop hits [x["name"]] on a non-dict element, or
    cannot iterate at all, and raises TypeError. *)
Definition json_items (x : json) : result (list json) :=
  match x with
  | JArr l => Ok l
  | _ => Err TypeError
  end.

(** [suggest address] is the answer of the ReCollect address-suggest
    endpoint to [requests.get(base_url, {'q': address, 'locale': 'en-US'})];
    the returned [JObj []] is the Python [{}]. *)
Definition get_address_api_info (suggest : string -> Response)
    (address : string) (provided_zip_code : option string) : result json :=
  let request_result := suggest address in
  if negb (Z.eqb (status_code request_result) codes_ok) then Ok (JObj [])
  else
    let result_json := body request_result in
    if negb (truthy result_json) then Ok (JObj [])
    else
      cands <- json_items result_json ;;
      unique_zip_codes <- find_unique_zipcodes cands ;;
      if Nat.ltb 1 (length unique_zip_codes) then
        (* [if provided_zip_code:] -- None and "" are falsy *)
        match provided_zip_code with
        | Some z =>
            if negb (String.eqb z "") then
              match zip_lookup z unique_zip_codes with
              | Some is => i <- first_index is ;; list_getitem cands i
              | None => Ok (JObj [])
              end
            else Err MultipleAddressError
        | None => Err MultipleAddressError
        end
      else list_getitem cands 0.

(* ------------------------------------------------------------------ *)
(** ** [validate_found_address] *)

(** The fields read from the output of [StreetAddressParser().parse];
    a field the parser could not find is [None]. *)
Record ParsedAddress := mkParsedAddress {
  house : option string;
  street_name : option string;
  street_type : option string
}.

(** [str.lower] on the code points 0..255 (Latin-1). *)
Definition lower_ascii (c : ascii) : ascii :=
  let n := nat_of_ascii c in
  if ((Nat.leb 65 n) && (Nat.leb n 90))
     || ((Nat.leb 192 n) && (Nat.leb n 222) && negb (Nat.eqb n 215))
  then ascii_of_nat (n + 32) else c.

Definition str_lower (s : string) : string :=
  string_of_list_ascii (map lower_ascii (list_ascii_of_string s)).

(** [x.lower()]: [None.lower] raises AttributeError. *)
Definition lower_opt (x : option string) : result string :=
  match x with
  | Some s => Ok (str_lower s)
  | None => Err AttributeError
  end.

Fixpoint is_prefix (p s : list ascii) : bool :=
  match p, s with
  | [], _ => true
  | c :: p', d :: s' => Ascii.eqb c d && is_prefix p' s'
  | _ :: _, [] => false
  end.

Fixpoint contains (needle hay : list ascii) : bool :=
  is_prefix needle hay ||
  match hay with
  | [] => false
  | _ :: hay' => contains needle hay'
  end.

(** [needle in hay] on strings. *)
Definition str_in (needle hay : string) : bool :=
  contains (list_ascii_of_string needle) (list_ascii_of_string hay).

Definition opt_str_eqb (x y : option string) : bool :=
  match x, y with
  | Some a, Some b => String.eqb a b
  | None, None => true
  | _, _ => false
  end.

Definition validate_found_address (parse : string -> ParsedAddress)
    (found_address user_provided_address : string) : result bool :=
  let found_address := parse found_address in
  let user_provided_address := parse user_provided_address in
  if negb (opt_str_eqb (house found_address) (house user_provided_address))
  then Ok false
  else
    fn <- lower_opt (street_name found_address) ;;
    un <- lower_opt (street_name user_provided_address) ;;
    if negb (String.eqb fn un) then Ok false
    else
      (* Allow for mismatched "Road" street_type *)
      ft <- lower_opt (street_type found_address) ;;
      rd_road <- (if str_in "rd" ft
                  then ut <- lower_opt (street_type user_provided_address) ;;
                       Ok (str_in "road" ut)
                  else Ok false) ;;
      if rd_road then Ok true
      else
        (* fuzzy match on street type *)
        ft <- lower_opt (street_type found_address) ;;
        ut <- lower_opt (street_type user_provided_address) ;;
        if negb (str_in ft ut) && negb (str_in ut ft) then Ok false
        else Ok true.

(* ------------------------------------------------------------------ *)
(** ** [get_trash_day_data]: the argument dict lives in a heap *)

Definition loc := nat.
Definition heap := loc -> dict.

Definition heap_upd (h : heap) (l : loc) (d : dict) : heap :=
  fun l' => if Nat.eqb l' l then d else h l'.

(** [request_result.json()] unless the status is not ok, then [{}]. *)
Definition response_json (request_result : Response) : json :=
  if negb (Z.eqb (status_code request_result) codes_ok) then JObj []
  else body request_result.

(** [places params] is the answer of [requests.get(base_url, params)] on
    the ReCollect places endpoint.  The function renames the key ["name"]
    of the dict at [api_parameters] in place, then issues the request with
    that (mutated) dict.  Returns the heap after the call and the result. *)
Definition get_trash_day_data (places : dict -> Response) (h : heap)
    (api_parameters : loc) : heap * json :=
  let h :=
    if dict_mem "name" (h api_parameters) then
      match dict_pop "name" (h api_parameters) with
      | Some (v, d) =>
          heap_upd h api_parameters (dict_setitem "formatted_address" v d)
      | None => h
      end
    else h in
  let request_result := places (h api_parameters) in
  (h, response_json request_result).

(* ------------------------------------------------------------------ *)
(** ** [get_trash_days_from_trash_data] *)

(** [DAY_CODE_REGEX = r'\d+A? - '] anchored at the head of the input:
    the rest of the input after a match, or None.  [\d+] is greedy and its
    backtracking cannot help (a digit is neither 'A' nor ' '), so the match
    takes the whole digit run. *)
Definition day_code_tail (s : list ascii) : option (list ascii) :=
  match s with
  | "A"%char :: " "%char :: "-"%char :: " "%char :: r => Some r
  | " "%char :: "-"%char :: " "%char :: r => Some r
  | _ => None
  end.

Fixpoint day_code_after_digits (s : list ascii) : option (list ascii) :=
  match s with
  | c :: s' => if is_digit c then day_code_after_digits s' else day_code_tail s
  | [] => None
  end.

Definition day_code_at (s : list ascii) : option (list ascii) :=
  match s with
  | c :: s' => if is_digit c then day_code_after_digits s' else None
  | [] => None
  end.

(** [re.sub(DAY_CODE_REGEX, '', s)]: scan left to right, delete each
    match, resume after it.  Every step consumes a character, so
    [length s] steps are enough. *)
Fixpoint re_sub_day_code_fuel (fuel : nat) (s : list ascii) : list ascii :=
  match fuel with
  | O => s
  | S fuel' =>
      match s with
      | [] => []
      | c :: s' =>
          match day_code_at s with
          | Some r => re_sub_day_code_fuel fuel' r
          | None => c :: re_sub_day_code_fuel fuel' s'
          end
      end
  end.

Definition re_sub_day_code (s : list ascii) : list ascii :=
  re_sub_day_code_fuel (length s) s.

(** [s.replace('&', '')] *)
Definition remove_amp (s : list ascii) : list ascii :=
  filter (fun c => negb (Ascii.eqb c "&"%char)) s.

(** [str.isspace] on the code points 0..255. *)
Definition is_space (c : ascii) : bool :=
  let n := nat_of_ascii c in
  ((Nat.leb 9 n) && (Nat.leb n 13)) || ((Nat.leb 28 n) && (Nat.leb n 32))
  || Nat.eqb n 133 || Nat.eqb n 160.

(** [s.split()]: maximal runs of non-space characters; [cur] is the word
    being read, reversed. *)
Fixpoint split_ws_aux (cur : list ascii) (s : list ascii) : list (list ascii) :=
  match s with
  | [] => match cur with [] => [] | _ => [rev cur] end
  | c :: s' =>
      if is_space c then
        match cur with
        | [] => split_ws_aux [] s'
        | _ => rev cur :: split_ws_aux [] s'
        end
      else split_ws_aux (c :: cur) s'
  end.

Definition str_split (s : string) : list string :=
  map string_of_list_ascii (split_ws_aux [] (list_ascii_of_string s)).

Definition get_trash_days_from_trash_data (trash_data : json) : result (list string) :=
  let attempt :=
    next_event <- getitem trash_data "next_event" ;;
    zone <- getitem next_event "zone" ;;
    title <- getitem zone "title" ;;
    trash_days_string <- as_str title ;;
    let trash_days_string :=
      string_of_list_ascii (re_sub_day_code (list_ascii_of_string trash_days_string)) in
    let trash_days :=
      str_split (string_of_list_ascii (remove_amp (list_ascii_of_string trash_days_string))) in
    Ok trash_days in
  match attempt with
  | Err KeyError => Err BadAPIResponse   (* except KeyError: raise BadAPIResponse *)
  | r => r
  end.

(* ------------------------------------------------------------------ *)
(** ** [build_speech_from_list_of_days] *)

Definition build_speech_from_list_of_days (days : list string) : result string :=
  let n := length days in
  if Nat.eqb n 0 then Err BadAPIResponse
  else if Nat.eqb n 1 then Ok (nth 0 days "")
  else if Nat.eqb n 2 then Ok (String.concat " and " days)
  else
    let output_speech := String.concat ", " (firstn (n - 1) days) in
    Ok (output_speech ++ ", and " ++ nth (n - 1) days "").

(* ------------------------------------------------------------------ *)
(** ** [get_trash_and_recycling_days] *)

(** The dict [get_address_api_info] returns is a fresh object decoded from
    the suggestion response; it is put at location 0 of a heap. *)
Definition heap_of (d : dict) : heap := fun _ => d.

Definition get_trash_and_recycling_days (suggest : string -> Response)
    (places : dict -> Response) (parse : string -> ParsedAddress)
    (address : string) (zip_code : option string) : result (list string) :=
  api_params <- get_address_api_info suggest address zip_code ;;
  if negb (truthy api_params) then Err InvalidAddressError
  else
    name <- getitem api_params "name" ;;
    found <- as_str name ;;
    valid <- validate_found_address parse found address ;;
    if negb valid then Err InvalidAddressError
    else
      match api_params with
      | JObj d =>
          let trash_data := snd (get_trash_day_data places (heap_of d) 0) in
          if negb (truthy trash_data) then Err BadAPIResponse
          else get_trash_days_from_trash_data trash_data
      | _ => Err TypeError
      end.

(* ------------------------------------------------------------------ *)
(** ** The zip code of [get_trash_day_info] *)

(** [s.zfill(width)]: pads with '0' on the left up to [width]; a leading
    '+' or '-' stays in front of the padding. *)
Definition py_zfill (s : string) (width : nat) : string :=
  let fill := width - String.length s in
  if Nat.eqb fill 0 then s
  else
    let zeros := string_of_list_ascii (repeat "0"%char fill) in
    match s with
    | String c s' =>
        if Ascii.eqb c "+"%char || Ascii.eqb c "-"%char
        then String c (zeros ++ s')
        else zeros ++ s
    | EmptyString => zeros
    end.

(** Lines 41-46 of [get_trash_day_info]: [other] is [a["other"]] of the
    parsed session address, [session_zip] the value stored under
    [ZIP_CODE_KEY] in the session attributes ([None] when the key is
    absent).
<<
zip_code = str(a["other"]).zfill(5) if a["other"] else None
if zip_code is None and zip_code_key in mycity_request.session_attributes:
    zip_code = mycity_request.session_attributes[zip_code_key]
>> *)
Definition trash_day_zip_code (other : option string) (session_zip : option string)
    : option string :=
  let zip_code :=
    match other with
    | Some o => if negb (String.eqb o "") then Some (py_zfill o 5) else None
    | None => None
    end in
  match zip_code with
  | None => session_zip
  | Some z => Some z
  end.

(* ------------------------------------------------------------------ *)
(** ** Auxiliary definitions for the properties *)

(** The key one loop iteration of [find_unique_zipcodes] computes for a
    candidate, or the exception it raises. *)
Definition candidate_zip (address_info : json) : result string :=
  name <- getitem address_info "name" ;;
  s <- as_str name ;;
  match_group0 (re_search_5digits (list_ascii_of_string s)).

(** The positions, counted from [i], of the candidates of [l] whose key is
    [k], in increasing order. *)
Fixpoint positions_from (i : nat) (l : list json) (k : string) : list nat :=
  match l with
  | [] => []
  | c :: l' =>
      let rest := positions_from (S i) l' k in
      match candidate_zip c with
      | Ok z => if String.eqb z k then i :: rest else rest
      | Err _ => rest
      end
  end.

Definition zip_positions (l : list json) (k : string) : list nat :=
  positions_from 0 l k.

(** The dict the places endpoint receives in [get_trash_and_recycling_days]
    for the chosen candidate [d]. *)
Definition renamed_params (places : dict -> Response) (d : dict) : dict :=
  fst (get_trash_day_data places (heap_of d) 0) 0.

(** A stored index list followed by further positions. *)
Definition opt_app (o : option (list nat)) (is : list nat) : option (list nat) :=
  match o, is with
  | None, [] => None
  | None, _ => Some is
  | Some v, _ => Some (app v is)
  end.

(** A key of the postal-code index: five decimal digits. *)
Definition five_digit_string (k : string) : Prop :=
  String.length k = 5 /\ Forall (fun c => is_digit c = true) (list_ascii_of_string k).

(* ------------------------------------------------------------------ *)
(** ** Concrete inputs used by the examples *)

(** A suggestion record as returned by the address-suggest endpoint. *)
Definition sample_candidate (name : string) : json :=
  JObj [("name", JStr name); ("service_id", JNum 310); ("area_name", JStr "Boston")].

(** An address-suggest endpoint that answers [cands] with status 200. *)
Definition sample_suggest (cands : list json) : string -> Response :=
  fun _ => mkResponse 200 (JArr cands).

(** A places endpoint that answers with status 200 and an empty body. *)
Definition sample_places : dict -> Response := fun _ => mkResponse 200 JNull.

(** Three suggestions, one in 02118 and two in 02119. *)
Definition sample_candidates : list json :=
  [ sample_candidate "10 Main St Boston, MA 02118";
    sample_candidate "10 Main St Boston, MA 02119";
    sample_candidate "10 Main Street Boston, MA 02119" ].

(** A schedule payload holding [title] at next_event -> zone -> title. *)
Definition schedule_with_title (title : json) : json :=
  JObj [("next_event", JObj [("zone", JObj [("title", title)])])].

(** A tokenizer that knows a few addresses. *)
Definition sample_parse (s : string) : ParsedAddress :=
  if String.eqb s "10 Main Road" then mkParsedAddress (Some "10") (Some "Main") (Some "Road")
  else if String.eqb s "10 Main Rd" then mkParsedAddress (Some "10") (Some "Main") (Some "Rd")
  else if String.eqb s "01 Main St" then mkParsedAddress (Some "01") (Some "Main") (Some "St")
  else if String.eqb s "1 Main St" then mkParsedAddress (Some "1") (Some "Main") (Some "St")
  else mkParsedAddress None None None.

(* ================================================================== *)
(** * Properties *)

(** ** Dictionary lemmas *)

Lemma dict_lookup_setitem_same k v d :
  dict_lookup k (dict_setitem k v d) = Some v.
Proof.
  induction d as [|[k' w] d IH]; simpl.
  - now rewrite String.eqb_refl.
  - destruct (String.eqb k k') eqn:E; simpl.
    + apply String.eqb_eq in E; subst. now rewrite String.eqb_refl.
    + now rewrite E.
Qed.

Lemma dict_lookup_setitem_other k k0 v d :
  k0 <> k -> dict_lookup k0 (dict_setitem k v d) = dict_lookup k0 d.
Proof.
  intros Hne. induction d as [|[k' w] d IH]; simpl.
  - apply String.eqb_neq in Hne. now rewrite Hne.
  - destruct (String.eqb k k') eqn:E; simpl.
    + apply String.eqb_eq in E; subst.
      apply String.eqb_neq in Hne. now rewrite Hne.
    + now rewrite IH.
Qed.

Lemma dict_lookup_none_not_in k d :
  ~ In k (map fst d) -> dict_lookup k d = None.
Proof.
  induction d as [|[k' w] d IH]; simpl; intros Hn; [reflexivity|].
  destruct (String.eqb k k') eqn:E.
  - apply String.eqb_eq in E; subst. exfalso. now apply Hn; left.
  - apply IH. intro; apply Hn; now right.
Qed.

(** On a dict (no duplicate keys), [pop] of a present key returns its
    value and removes exactly that key. *)
Lemma dict_pop_lookup k v d :
  NoDup (map fst d) -> dict_lookup k d = Some v ->
  exists d', dict_pop k d = Some (v, d')
          /\ dict_lookup k d' = None
          /\ (forall k0, k0 <> k -> dict_lookup k0 d' = dict_lookup k0 d).
Proof.
  induction d as [|[k' w] d IH]; simpl; intros Hnd Hl; [discriminate|].
  inversion Hnd as [|? ? Hnin Hnd']; subst.
  destruct (String.eqb k k') eqn:E.
  - apply String.eqb_eq in E; subst. injection Hl as <-.
    exists d. split; [reflexivity|]. split.
    + now apply dict_lookup_none_not_in.
    + intros k0 Hk0. apply String.eqb_neq in Hk0. now rewrite Hk0.
  - destruct (IH Hnd' Hl) as [d' [Hp [Hn Ho]]].
    rewrite Hp. exists ((k', w) :: d'). split; [reflexivity|]. split.
    + simpl. now rewrite E.
    + intros k0 Hk0. simpl. destruct (String.eqb k0 k'); [reflexivity|]. now apply Ho.
Qed.

(** ** The postal-code index *)

Lemma zip_lookup_add k z i idx :
  zip_lookup k (zip_add z i idx) =
  if String.eqb k z
  then Some (match zip_lookup z idx with Some v => app v [i] | None => [i] end)
  else zip_lookup k idx.
Proof.
  induction idx as [|[k' v] idx IH]; simpl.
  - destruct (String.eqb k z); reflexivity.
  - destruct (String.eqb z k') eqn:E; simpl.
    + apply String.eqb_eq in E; subst.
      destruct (String.eqb k k'); reflexivity.
    + rewrite IH. destruct (String.eqb k z) eqn:E2; [|reflexivity].
      apply String.eqb_eq in E2; subst. now rewrite E.
Qed.

(** Keys of the index are non-empty strings and its indexes point below
    the number of candidates read so far. *)
Definition index_ok (n : nat) (idx : zip_index) : Prop :=
  forall k is, zip_lookup k idx = Some is -> k <> "" /\ Forall (fun j => j < n) is.

Lemma index_ok_mono n m idx : n <= m -> index_ok n idx -> index_ok m idx.
Proof.
  intros Hle H k is Hk. destruct (H k is Hk) as [Hne Hf]. split; [exact Hne|].
  eapply Forall_impl; [|exact Hf]. simpl; intros; lia.
Qed.

Lemma index_ok_add n z idx :
  z <> "" -> index_ok n idx -> index_ok (S n) (zip_add z n idx).
Proof.
  intros Hz H k is Hk. rewrite zip_lookup_add in Hk.
  destruct (String.eqb k z) eqn:E.
  - apply String.eqb_eq in E; subst. split; [exact Hz|].
    injection Hk as <-.
    destruct (zip_lookup z idx) as [v|] eqn:Hv.
    + apply Forall_app. split.
      * destruct (H z v Hv) as [_ Hf]. eapply Forall_impl; [|exact Hf]. simpl; intros; lia.
      * constructor; [lia | constructor].
    + constructor; [lia | constructor].
  - exact (index_ok_mono n (S n) idx ltac:(lia) H k is Hk).
Qed.

Lemma find_unique_zipcodes_loop_ok index l acc idx :
  find_unique_zipcodes_loop index l acc = Ok idx ->
  index_ok index acc -> index_ok (index + length l) idx.
Proof.
  revert index acc. induction l as [|x l IH]; simpl; intros index acc Hrun Hacc.
  - injection Hrun as <-. now rewrite Nat.add_0_r.
  - destruct (getitem x "name") as [name|e]; [|discriminate]; simpl in Hrun.
    destruct (as_str name) as [s|e]; [|discriminate]; simpl in Hrun.
    destruct (match_group0 (re_search_5digits (list_ascii_of_string s))) as [zc|e];
      [|discriminate]; simpl in Hrun.
    replace (index + S (length l)) with (S index + length l) by lia.
    apply (IH (S index) _ Hrun).
    destruct (String.eqb zc "") eqn:E; simpl.
    + apply (index_ok_mono index); [lia | exact Hacc].
    + apply index_ok_add; [now apply String.eqb_neq | exact Hacc].
Qed.

Lemma find_unique_zipcodes_ok l idx :
  find_unique_zipcodes l = Ok idx -> index_ok (length l) idx.
Proof.
  intros H. apply (find_unique_zipcodes_loop_ok 0 l [] idx H).
  intros k is Hk. discriminate.
Qed.

Lemma find_unique_zipcodes_nil : find_unique_zipcodes [] = Ok [].
Proof. reflexivity. Qed.

(** ** Postal-code index *)

(** C1 (code_bug). A candidate whose name holds no five-digit run is not
    skipped: [re.search] returns None and [.group(0)] raises
    AttributeError, so [find_unique_zipcodes] fails on the whole list,
    here the second of two candidates. *)
Lemma find_unique_zipcodes_no_zip_raises :
  find_unique_zipcodes
    [sample_candidate "10 Main St Boston, MA 02118"; sample_candidate "10 Main St Boston"]
  = Err AttributeError.
Proof. vm_compute. reflexivity. Qed.

(** ** Address validator *)

Lemma opt_str_eqb_refl x : opt_str_eqb x x = true.
Proof. destruct x; simpl; [apply String.eqb_refl | reflexivity]. Qed.

(** C2 (counterexample). The candidate's type "Road" against the user's
    "Rd", same house number and street name: the address is rejected,
    while the claim has it accepted ("rd means road" in either direction). *)
Lemma validate_road_rd_rejected :
  house (sample_parse "10 Main Road") = house (sample_parse "10 Main Rd")
  /\ street_name (sample_parse "10 Main Road") = street_name (sample_parse "10 Main Rd")
  /\ street_type (sample_parse "10 Main Road") = Some "Road"
  /\ street_type (sample_parse "10 Main Rd") = Some "Rd"
  /\ validate_found_address sample_parse "10 Main Road" "10 Main Rd" = Ok false.
Proof. vm_compute. repeat split. Qed.

(** C2 (amended). With equal house numbers and street names equal up to
    case, the validator accepts exactly when the candidate's street type
    contains "rd" and the user's contains "road", or one lower-cased street
    type is a substring of the other. *)
Theorem validate_street_type_rule parse found user n1 n2 A B :
  house (parse found) = house (parse user) ->
  street_name (parse found) = Some n1 ->
  street_name (parse user) = Some n2 ->
  str_lower n1 = str_lower n2 ->
  street_type (parse found) = Some A ->
  street_type (parse user) = Some B ->
  validate_found_address parse found user =
  Ok ((str_in "rd" (str_lower A) && str_in "road" (str_lower B))
      || str_in (str_lower A) (str_lower B)
      || str_in (str_lower B) (str_lower A)).
Proof.
  intros Hh Hn1 Hn2 Hn HA HB. unfold validate_found_address.
  rewrite Hh, opt_str_eqb_refl, Hn1, Hn2, HA, HB. simpl.
  rewrite Hn, String.eqb_refl. simpl.
  destruct (str_in "rd" (str_lower A)); simpl;
    [destruct (str_in "road" (str_lower B)); simpl; [reflexivity|] | ];
    destruct (str_in (str_lower A) (str_lower B));
    destruct (str_in (str_lower B) (str_lower A)); reflexivity.
Qed.

Lemma validate_street_type_rule_witness :
  house (sample_parse "10 Main Rd") = house (sample_parse "10 Main Road")
  /\ validate_found_address sample_parse "10 Main Rd" "10 Main Road" = Ok true.
Proof.
  split; [reflexivity|].
  exact (validate_street_type_rule sample_parse "10 Main Rd" "10 Main Road"
           "Main" "Main" "Rd" "Road" eq_refl eq_refl eq_refl eq_refl eq_refl eq_refl).
Defined.

(** ** Disambiguation *)

(** A list whose index has two or more keys is not empty. *)
Lemma index_many_nonempty cands idx :
  find_unique_zipcodes cands = Ok idx -> 1 < length idx -> truthy (JArr cands) = true.
Proof.
  destruct cands as [|c cands]; [|reflexivity].
  rewrite find_unique_zipcodes_nil. intros H; injection H as <-. simpl; lia.
Qed.

(** C3. Several distinct postal codes and no postal code given:
    MultipleAddressError. *)
Theorem get_address_api_info_ambiguous suggest address cands idx :
  status_code (suggest address) = codes_ok ->
  body (suggest address) = JArr cands ->
  find_unique_zipcodes cands = Ok idx ->
  1 < length idx ->
  get_address_api_info suggest address None = Err MultipleAddressError.
Proof.
  intros Hs Hb Hf Hl. unfold get_address_api_info.
  rewrite Hs, Z.eqb_refl, Hb, (index_many_nonempty cands idx Hf Hl). simpl.
  rewrite Hf. simpl. apply Nat.ltb_lt in Hl. now rewrite Hl.
Qed.

Lemma get_address_api_info_ambiguous_witness :
  find_unique_zipcodes sample_candidates = Ok [("02118", [0]); ("02119", [1; 2])]
  /\ get_address_api_info (sample_suggest sample_candidates) "10 Main St" None
     = Err MultipleAddressError.
Proof.
  split; [vm_compute; reflexivity|].
  apply (get_address_api_info_ambiguous _ _ sample_candidates
           [("02118", [0]); ("02119", [1; 2])]);
    [reflexivity | reflexivity | vm_compute; reflexivity | simpl; lia].
Defined.

(** C4 (counterexample). The empty string is a provided postal code that is
    not a key of the index, yet, being falsy, it leads to
    MultipleAddressError, in [get_address_api_info] and in the pipeline. *)
Lemma empty_zip_still_ambiguous :
  find_unique_zipcodes sample_candidates = Ok [("02118", [0]); ("02119", [1; 2])]
  /\ zip_lookup "" [("02118", [0]); ("02119", [1; 2])] = None
  /\ get_address_api_info (sample_suggest sample_candidates) "10 Main St" (Some "")
     = Err MultipleAddressError
  /\ get_trash_and_recycling_days (sample_suggest sample_candidates) sample_places
       sample_parse "10 Main St" (Some "") = Err MultipleAddressError.
Proof. vm_compute. repeat split. Qed.

(** C4 (amended). Several distinct postal codes: a non-empty postal code
    that is not a key gives the empty result [{}], which the pipeline turns
    into InvalidAddressError; the empty string, being falsy, is treated as
    no postal code and gives MultipleAddressError, in [get_address_api_info]
    and in the pipeline. *)
Theorem get_address_api_info_unknown_zip suggest places parse address cands idx :
  status_code (suggest address) = codes_ok ->
  body (suggest address) = JArr cands ->
  find_unique_zipcodes cands = Ok idx ->
  1 < length idx ->
  (forall z, z <> "" -> zip_lookup z idx = None ->
     get_address_api_info suggest address (Some z) = Ok (JObj [])
     /\ get_trash_and_recycling_days suggest places parse address (Some z)
        = Err InvalidAddressError)
  /\ get_address_api_info suggest address (Some "") = Err MultipleAddressError
  /\ get_trash_and_recycling_days suggest places parse address (Some "")
     = Err MultipleAddressError.
Proof.
  intros Hs Hb Hf Hl.
  assert (Hpre : forall zc, get_address_api_info suggest address zc =
    match zc with
    | Some z =>
        if negb (String.eqb z "") then
          match zip_lookup z idx with
          | Some is => i <- first_index is ;; list_getitem cands i
          | None => Ok (JObj [])
          end
        else Err MultipleAddressError
    | None => Err MultipleAddressError
    end).
  { intros zc. unfold get_address_api_info.
    rewrite Hs, Z.eqb_refl, Hb, (index_many_nonempty cands idx Hf Hl). simpl.
    rewrite Hf. simpl. apply Nat.ltb_lt in Hl. now rewrite Hl. }
  assert (Hempty : get_address_api_info suggest address (Some "") = Err MultipleAddressError)
    by now rewrite Hpre.
  split; [|split; [exact Hempty|]].
  - intros z Hz Hk.
    assert (Hres : get_address_api_info suggest address (Some z) = Ok (JObj [])).
    { rewrite Hpre. apply String.eqb_neq in Hz. rewrite Hz. simpl. now rewrite Hk. }
    split; [exact Hres|].
    unfold get_trash_and_recycling_days. now rewrite Hres.
  - unfold get_trash_and_recycling_days. now rewrite Hempty.
Qed.

Lemma get_address_api_info_unknown_zip_witness :
  (get_address_api_info (sample_suggest sample_candidates) "10 Main St" (Some "02120")
     = Ok (JObj [])
   /\ get_trash_and_recycling_days (sample_suggest sample_candidates) sample_places
        sample_parse "10 Main St" (Some "02120") = Err InvalidAddressError)
  /\ get_trash_and_recycling_days (sample_suggest sample_candidates) sample_places
       sample_parse "10 Main St" (Some "") = Err MultipleAddressError.
Proof.
  destruct (get_address_api_info_unknown_zip (sample_suggest sample_candidates)
              sample_places sample_parse "10 Main St" sample_candidates
              [("02118", [0]); ("02119", [1; 2])])
    as [H1 [_ H3]];
    [reflexivity | reflexivity | vm_compute; reflexivity | simpl; lia |].
  split; [|exact H3].
  apply H1; [discriminate | reflexivity].
Defined.

(** C5. Several distinct postal codes and a provided postal code that is a
    key: the candidate at the first index listed under that key. *)
Theorem get_address_api_info_known_zip suggest address cands idx z i is :
  status_code (suggest address) = codes_ok ->
  body (suggest address) = JArr cands ->
  find_unique_zipcodes cands = Ok idx ->
  1 < length idx ->
  zip_lookup z idx = Some (i :: is) ->
  exists c, nth_error cands i = Some c
            /\ get_address_api_info suggest address (Some z) = Ok c.
Proof.
  intros Hs Hb Hf Hl Hk.
  destruct (find_unique_zipcodes_ok cands idx Hf z (i :: is) Hk) as [Hz Hi].
  inversion Hi as [|? ? Hlt _]; subst.
  destruct (nth_error cands i) as [c|] eqn:Hc;
    [|apply nth_error_None in Hc; lia].
  exists c. split; [reflexivity|].
  unfold get_address_api_info.
  rewrite Hs, Z.eqb_refl, Hb, (index_many_nonempty cands idx Hf Hl). simpl.
  rewrite Hf. simpl. apply Nat.ltb_lt in Hl. rewrite Hl.
  apply String.eqb_neq in Hz. rewrite Hz. simpl. rewrite Hk. simpl.
  unfold list_getitem. now rewrite Hc.
Qed.

(** The spec's instance: index {"02118": [0], "02119": [1, 2]} and the code
    "02119" give the candidate at position 1, not the one at position 2. *)
Lemma get_address_api_info_known_zip_witness :
  find_unique_zipcodes sample_candidates = Ok [("02118", [0]); ("02119", [1; 2])]
  /\ (exists c, nth_error sample_candidates 1 = Some c
      /\ get_address_api_info (sample_suggest sample_candidates) "10 Main St" (Some "02119")
         = Ok c)
  /\ nth_error sample_candidates 1 <> nth_error sample_candidates 2.
Proof.
  split; [vm_compute; reflexivity|]. split.
  - apply (get_address_api_info_known_zip _ _ sample_candidates
             [("02118", [0]); ("02119", [1; 2])] "02119" 1 [2]);
      [reflexivity | reflexivity | vm_compute; reflexivity | simpl; lia
      | reflexivity].
  - discriminate.
Defined.

(** C6. Exactly one distinct postal code: the first candidate, whatever
    postal code is given. *)
Theorem get_address_api_info_single_zip suggest address c rest idx provided_zip_code :
  status_code (suggest address) = codes_ok ->
  body (suggest address) = JArr (c :: rest) ->
  find_unique_zipcodes (c :: rest) = Ok idx ->
  length idx = 1 ->
  get_address_api_info suggest address provided_zip_code = Ok c.
Proof.
  intros Hs Hb Hf Hl. unfold get_address_api_info.
  rewrite Hs, Z.eqb_refl, Hb. simpl. rewrite Hf. simpl. now rewrite Hl.
Qed.

Lemma get_address_api_info_single_zip_witness :
  find_unique_zipcodes
    [sample_candidate "10 Main St Boston, MA 02118";
     sample_candidate "10 Main Street Boston, MA 02118"]
    = Ok [("02118", [0; 1])]
  /\ get_address_api_info
       (sample_suggest [sample_candidate "10 Main St Boston, MA 02118";
                        sample_candidate "10 Main Street Boston, MA 02118"])
       "10 Main St" None
     = Ok (sample_candidate "10 Main St Boston, MA 02118").
Proof.
  split; [vm_compute; reflexivity|].
  apply (get_address_api_info_single_zip _ _
           (sample_candidate "10 Main St Boston, MA 02118")
           [sample_candidate "10 Main Street Boston, MA 02118"]
           [("02118", [0; 1])]);
    [reflexivity | reflexivity | vm_compute; reflexivity | reflexivity].
Defined.

(** ** Schedule parser *)

Lemma day_code_after_digits_shorter s r :
  day_code_after_digits s = Some r -> length r < length s.
Proof.
  induction s as [|c s IH]; simpl; [discriminate|].
  destruct (is_digit c).
  - intros H. specialize (IH H). lia.
  - unfold day_code_tail.
    intros H; repeat match type of H with
    | context [match ?x with _ => _ end] => destruct x; try discriminate
    end; injection H as <-; simpl; lia.
Qed.

Lemma day_code_at_shorter s r : day_code_at s = Some r -> length r < length s.
Proof.
  destruct s as [|c s]; simpl; [discriminate|].
  destruct (is_digit c); [|discriminate].
  intros H. apply day_code_after_digits_shorter in H. lia.
Qed.

(** The fuel of [re_sub_day_code] never runs out. *)
Lemma re_sub_day_code_fuel_enough n m s :
  length s <= n -> length s <= m -> re_sub_day_code_fuel n s = re_sub_day_code_fuel m s.
Proof.
  revert m s. induction n as [|n IH]; intros m s Hn Hm.
  - destruct s; [|simpl in Hn; lia]. destruct m; reflexivity.
  - destruct m as [|m].
    + destruct s; [reflexivity | simpl in Hm; lia].
    + destruct s as [|c s]; [reflexivity|]. cbn [re_sub_day_code_fuel].
      destruct (day_code_at (c :: s)) as [r|] eqn:Hd.
      * apply day_code_at_shorter in Hd. simpl in Hd, Hn, Hm.
        apply IH; lia.
      * f_equal. apply IH; simpl in Hn, Hm; lia.
Qed.

(** [re.sub] scans the input once: at each position, a match is deleted and
    the scan resumes after it; otherwise the character is kept. *)
Lemma re_sub_day_code_cons c s :
  re_sub_day_code (c :: s) =
  match day_code_at (c :: s) with
  | Some r => re_sub_day_code r
  | None => c :: re_sub_day_code s
  end.
Proof.
  unfold re_sub_day_code at 1. cbn [re_sub_day_code_fuel length].
  destruct (day_code_at (c :: s)) as [r|] eqn:Hd.
  - apply day_code_at_shorter in Hd. simpl in Hd.
    apply re_sub_day_code_fuel_enough; lia.
  - reflexivity.
Qed.

(** A value that is not a dict on the path next_event -> zone, or a title
    that is not a string, raises TypeError, which is not caught. *)
Lemma trash_days_type_error :
  (forall x, (forall fs, x <> JObj fs) -> get_trash_days_from_trash_data x = Err TypeError)
  /\ (forall fs v, dict_lookup "next_event" fs = Some v -> (forall f, v <> JObj f) ->
       get_trash_days_from_trash_data (JObj fs) = Err TypeError)
  /\ (forall fs fs1 v, dict_lookup "next_event" fs = Some (JObj fs1) ->
       dict_lookup "zone" fs1 = Some v -> (forall f, v <> JObj f) ->
       get_trash_days_from_trash_data (JObj fs) = Err TypeError)
  /\ (forall fs fs1 fs2 t, dict_lookup "next_event" fs = Some (JObj fs1) ->
       dict_lookup "zone" fs1 = Some (JObj fs2) ->
       dict_lookup "title" fs2 = Some t -> (forall s, t <> JStr s) ->
       get_trash_days_from_trash_data (JObj fs) = Err TypeError).
Proof.
  split; [|split; [|split]].
  - intros x Hx. destruct x as [|b|n|s|l|fs]; try reflexivity. now destruct (Hx fs).
  - intros fs v H1 Hv. unfold get_trash_days_from_trash_data. simpl. rewrite H1. simpl.
    destruct v as [|b|n|s|l|f]; try reflexivity. now destruct (Hv f).
  - intros fs fs1 v H1 H2 Hv. unfold get_trash_days_from_trash_data. simpl.
    rewrite H1. simpl. rewrite H2. simpl.
    destruct v as [|b|n|s|l|f]; try reflexivity. now destruct (Hv f).
  - intros fs fs1 fs2 t H1 H2 H3 Ht. unfold get_trash_days_from_trash_data. simpl.
    rewrite H1. simpl. rewrite H2. simpl. rewrite H3. simpl.
    destruct t as [|b|n|s|l|f]; try reflexivity. now destruct (Ht s).
Qed.



(** C7 (counterexample). [next_event] is null: the path is absent, but
    [None["zone"]] raises TypeError, which the code does not turn into
    BadAPIResponse. *)
Lemma trash_days_null_next_event :
  get_trash_days_from_trash_data (JObj [("next_event", JNull)]) = Err TypeError.
Proof. reflexivity. Qed.

(** C7 (amended). A key of the path next_event -> zone -> title missing
    from the JSON object along it gives BadAPIResponse; a null or other
    non-dict value at next_event or zone, or a title that is not a string,
    gives TypeError, which is not caught; a string title
    gives the title with the day codes removed by one [re.sub] pass, every
    "&" removed, split on whitespace; "3A - Monday &Tuesday" gives
    ["Monday"; "Tuesday"]. *)
Theorem get_trash_days_from_trash_data_spec :
  (forall fs, dict_lookup "next_event" fs = None ->
     get_trash_days_from_trash_data (JObj fs) = Err BadAPIResponse)
  /\ (forall fs fs1, dict_lookup "next_event" fs = Some (JObj fs1) ->
     dict_lookup "zone" fs1 = None ->
     get_trash_days_from_trash_data (JObj fs) = Err BadAPIResponse)
  /\ (forall fs fs1 fs2, dict_lookup "next_event" fs = Some (JObj fs1) ->
     dict_lookup "zone" fs1 = Some (JObj fs2) ->
     dict_lookup "title" fs2 = None ->
     get_trash_days_from_trash_data (JObj fs) = Err BadAPIResponse)
  /\ (forall fs fs1 fs2 s, dict_lookup "next_event" fs = Some (JObj fs1) ->
     dict_lookup "zone" fs1 = Some (JObj fs2) ->
     dict_lookup "title" fs2 = Some (JStr s) ->
     get_trash_days_from_trash_data (JObj fs)
     = Ok (str_split (string_of_list_ascii
             (remove_amp (re_sub_day_code (list_ascii_of_string s))))))
  /\ get_trash_days_from_trash_data (schedule_with_title (JStr "3A - Monday &Tuesday"))
     = Ok ["Monday"; "Tuesday"]
  /\ (forall x, (forall fs, x <> JObj fs) -> get_trash_days_from_trash_data x = Err TypeError)
  /\ (forall fs v, dict_lookup "next_event" fs = Some v -> (forall f, v <> JObj f) ->
       get_trash_days_from_trash_data (JObj fs) = Err TypeError)
  /\ (forall fs fs1 v, dict_lookup "next_event" fs = Some (JObj fs1) ->
       dict_lookup "zone" fs1 = Some v -> (forall f, v <> JObj f) ->
       get_trash_days_from_trash_data (JObj fs) = Err TypeError)
  /\ (forall fs fs1 fs2 t, dict_lookup "next_event" fs = Some (JObj fs1) ->
       dict_lookup "zone" fs1 = Some (JObj fs2) ->
       dict_lookup "title" fs2 = Some t -> (forall s, t <> JStr s) ->
       get_trash_days_from_trash_data (JObj fs) = Err TypeError).
Proof.
  split; [|split; [|split; [|split; [|split; [|exact trash_days_type_error]]]]].
  - intros fs H. unfold get_trash_days_from_trash_data. simpl. now rewrite H.
  - intros fs fs1 H1 H2. unfold get_trash_days_from_trash_data. simpl.
    rewrite H1. simpl. now rewrite H2.
  - intros fs fs1 fs2 H1 H2 H3. unfold get_trash_days_from_trash_data. simpl.
    rewrite H1. simpl. rewrite H2. simpl. now rewrite H3.
  - intros fs fs1 fs2 s H1 H2 H3. unfold get_trash_days_from_trash_data. simpl.
    rewrite H1. simpl. rewrite H2. simpl. rewrite H3. simpl.
    now rewrite list_ascii_of_string_of_list_ascii.
  - vm_compute. reflexivity.
Qed.

Lemma get_trash_days_from_trash_data_spec_witness :
  get_trash_days_from_trash_data (JObj [("next_event", JObj [])]) = Err BadAPIResponse
  /\ get_trash_days_from_trash_data (schedule_with_title (JStr "12 - Friday"))
     = Ok ["Friday"]
  /\ get_trash_days_from_trash_data (JObj [("next_event", JNull)]) = Err TypeError.
Proof.
  destruct get_trash_days_from_trash_data_spec as [_ [H2 [_ [H4 [_ [_ [H7 _]]]]]]].
  split; [|split; [|apply (H7 _ JNull); [reflexivity | intros f; discriminate]]].
  - apply (H2 _ []); reflexivity.
  - unfold schedule_with_title.
    rewrite (H4 [("next_event", JObj [("zone", JObj [("title", JStr "12 - Friday")])])]
                [("zone", JObj [("title", JStr "12 - Friday")])]
                [("title", JStr "12 - Friday")] "12 - Friday" eq_refl eq_refl eq_refl).
    vm_compute. reflexivity.
Defined.

(** ** Speech formatter *)

Lemma last_nth_pred (l : list string) d : last l d = nth (pred (length l)) l d.
Proof.
  induction l as [|x l IH]; [reflexivity|].
  destruct l as [|y l]; [reflexivity|].
  simpl in *. exact IH.
Qed.

(** C8. Empty list: BadAPIResponse, and only then; one day: the day; two
    days: joined by " and "; three or more: all but the last joined by
    ", ", then ", and " and the last. *)
Theorem build_speech_from_list_of_days_spec :
  (forall days, build_speech_from_list_of_days days = Err BadAPIResponse <-> days = [])
  /\ (forall d, build_speech_from_list_of_days [d] = Ok d)
  /\ (forall a b, build_speech_from_list_of_days [a; b] = Ok (a ++ " and " ++ b))
  /\ (forall a b c rest,
        build_speech_from_list_of_days (a :: b :: c :: rest)
        = Ok (String.concat ", " (removelast (a :: b :: c :: rest))
              ++ ", and " ++ last (a :: b :: c :: rest) "")).
Proof.
  split; [|split; [|split]].
  - intros days. split.
    + destruct days as [|x [|y [|z rest]]]; simpl; [reflexivity | discriminate
        | discriminate | discriminate].
    + intros ->. reflexivity.
  - reflexivity.
  - reflexivity.
  - intros a b c rest. unfold build_speech_from_list_of_days.
    set (days := a :: b :: c :: rest).
    assert (Hn : length days = S (S (S (length rest)))) by reflexivity.
    rewrite Hn. cbn [Nat.eqb].
    rewrite (removelast_firstn_len days), (last_nth_pred days), Hn.
    replace (S (S (S (length rest))) - 1) with (pred (S (S (S (length rest))))) by lia.
    reflexivity.
Qed.

(** ** House numbers *)

Lemma opt_str_eqb_true x y : opt_str_eqb x y = true -> x = y.
Proof.
  destruct x, y; simpl; try discriminate; [|reflexivity].
  intros H. apply String.eqb_eq in H. now subst.
Qed.

(** C9. House numbers that differ (as strings, or one of them missing):
    rejected, whatever the street names and types. *)
Theorem validate_house_mismatch parse found user :
  house (parse found) <> house (parse user) ->
  validate_found_address parse found user = Ok false.
Proof.
  intros Hne. unfold validate_found_address.
  destruct (opt_str_eqb (house (parse found)) (house (parse user))) eqn:E.
  - exfalso. apply Hne. now apply opt_str_eqb_true.
  - reflexivity.
Qed.

Lemma validate_house_mismatch_witness :
  house (sample_parse "01 Main St") = Some "01"
  /\ house (sample_parse "1 Main St") = Some "1"
  /\ validate_found_address sample_parse "01 Main St" "1 Main St" = Ok false.
Proof.
  split; [reflexivity|]. split; [reflexivity|].
  apply validate_house_mismatch. vm_compute. discriminate.
Defined.

(** ** In-place rename in [get_trash_day_data] *)

(** C10. When the dict holds "name", after the call the caller's dict has
    no "name", has "formatted_address" bound to the former value of
    "name", and every other key keeps its value; no other location of the
    heap changes, and the request is issued with the renamed dict. *)
Theorem get_trash_day_data_renames_name places h l v :
  NoDup (map fst (h l)) ->
  dict_lookup "name" (h l) = Some v ->
  let (h', trash_data) := get_trash_day_data places h l in
  dict_lookup "name" (h' l) = None
  /\ dict_lookup "formatted_address" (h' l) = Some v
  /\ (forall k, k <> "name" -> k <> "formatted_address" ->
        dict_lookup k (h' l) = dict_lookup k (h l))
  /\ (forall l', l' <> l -> h' l' = h l')
  /\ trash_data = response_json (places (h' l)).
Proof.
  intros Hnd Hv.
  destruct (dict_pop_lookup "name" v (h l) Hnd Hv) as [d' [Hp [Hn Ho]]].
  unfold get_trash_day_data, dict_mem. rewrite Hv, Hp.
  unfold heap_upd. rewrite Nat.eqb_refl.
  split; [|split; [|split; [|split]]].
  - rewrite dict_lookup_setitem_other by discriminate. exact Hn.
  - apply dict_lookup_setitem_same.
  - intros k Hk1 Hk2. rewrite dict_lookup_setitem_other by exact Hk2. now apply Ho.
  - intros l' Hl'. apply Nat.eqb_neq in Hl'. now rewrite Hl'.
  - reflexivity.
Qed.

Lemma get_trash_day_data_renames_name_witness :
  let h := heap_of [("area_name", JStr "Boston"); ("name", JStr "10 Main St Boston, MA 02118");
                    ("place_id", JNum 7)] in
  NoDup (map fst (h 0))
  /\ fst (get_trash_day_data sample_places h 0) 0
     = [("area_name", JStr "Boston"); ("place_id", JNum 7);
        ("formatted_address", JStr "10 Main St Boston, MA 02118")]
  /\ (let (h', trash_data) := get_trash_day_data sample_places h 0 in
      dict_lookup "name" (h' 0) = None
      /\ dict_lookup "formatted_address" (h' 0) = Some (JStr "10 Main St Boston, MA 02118")
      /\ (forall k, k <> "name" -> k <> "formatted_address" ->
            dict_lookup k (h' 0) = dict_lookup k (h 0))
      /\ (forall l', l' <> 0 -> h' l' = h l')
      /\ trash_data = response_json (sample_places (h' 0))).
Proof.
  intros h. split; [|split].
  - simpl. repeat constructor; simpl; intuition discriminate.
  - reflexivity.
  - apply get_trash_day_data_renames_name; [|reflexivity].
    simpl. repeat constructor; simpl; intuition discriminate.
Defined.

Lemma build_speech_from_list_of_days_spec_witness :
  build_speech_from_list_of_days [] = Err BadAPIResponse
  /\ build_speech_from_list_of_days ["Monday"] = Ok "Monday"
  /\ build_speech_from_list_of_days ["Monday"; "Tuesday"] = Ok "Monday and Tuesday"
  /\ build_speech_from_list_of_days ["Monday"; "Tuesday"; "Wednesday"]
     = Ok "Monday, Tuesday, and Wednesday".
Proof.
  destruct build_speech_from_list_of_days_spec as [H0 [H1 [H2 H3]]].
  split; [apply H0; reflexivity|]. split; [apply H1|]. split; [apply H2|].
  rewrite H3. reflexivity.
Defined.

(* ================================================================== *)
(** * Further properties of the code *)

(** ** The postal-code index, in full *)

Lemma find_unique_zipcodes_loop_cons index c l acc :
  find_unique_zipcodes_loop index (c :: l) acc =
  bind (candidate_zip c) (fun z =>
    find_unique_zipcodes_loop (S index) l
      (if negb (String.eqb z "") then zip_add z index acc else acc)).
Proof.
  simpl. unfold candidate_zip.
  destruct (getitem c "name"); simpl; [|reflexivity].
  destruct (as_str a); simpl; [|reflexivity].
  destruct (match_group0 _); reflexivity.
Qed.

Lemma length_string_of_list_ascii (m : list ascii) :
  String.length (string_of_list_ascii m) = length m.
Proof. induction m as [|c m IH]; simpl; [reflexivity | now rewrite IH]. Qed.

Lemma re_search_5digits_five s m :
  re_search_5digits s = Some m -> length m = 5 /\ Forall (fun c => is_digit c = true) m.
Proof.
  induction s as [|c s IH]; [discriminate|].
  intros H. cbn [re_search_5digits] in H.
  destruct (five_digits_at (c :: s)) as [m'|] eqn:E.
  - injection H as <-. unfold five_digits_at in E.
    destruct s as [|c2 [|c3 [|c4 [|c5 s]]]]; try discriminate.
    destruct (is_digit c) eqn:D1, (is_digit c2) eqn:D2, (is_digit c3) eqn:D3,
             (is_digit c4) eqn:D4, (is_digit c5) eqn:D5; try discriminate.
    injection E as <-. split; [reflexivity|]. repeat constructor; assumption.
  - exact (IH H).
Qed.

Lemma candidate_zip_five c z : candidate_zip c = Ok z -> five_digit_string z.
Proof.
  unfold candidate_zip.
  destruct (getitem c "name") as [name|e]; simpl; [|discriminate].
  destruct (as_str name) as [s|e]; simpl; [|discriminate].
  destruct (re_search_5digits (list_ascii_of_string s)) as [m|] eqn:E; simpl; [|discriminate].
  intros H; injection H as <-. apply re_search_5digits_five in E as [Hl Hd].
  split; [now rewrite length_string_of_list_ascii|].
  now rewrite list_ascii_of_string_of_list_ascii.
Qed.

Lemma five_digit_string_nonempty z : five_digit_string z -> z <> "".
Proof. intros [H _] ->. discriminate. Qed.

Lemma find_unique_zipcodes_loop_ok_iff index l acc :
  (exists idx, find_unique_zipcodes_loop index l acc = Ok idx)
  <-> Forall (fun c => exists z, candidate_zip c = Ok z) l.
Proof.
  revert index acc. induction l as [|c l IH]; intros index acc.
  - simpl. split; [constructor | eauto].
  - rewrite find_unique_zipcodes_loop_cons. split.
    + intros [idx H]. destruct (candidate_zip c) as [z|e] eqn:Hc; simpl in H; [|discriminate].
      constructor; [eauto|].
      apply (proj1 (IH (S index) (if negb (String.eqb z "") then zip_add z index acc else acc))).
      exists idx. exact H.
    + intros Hf. inversion Hf as [|? ? [z Hz] Hl]; subst.
      rewrite Hz. simpl. apply (proj2 (IH _ _)). exact Hl.
Qed.

Lemma find_unique_zipcodes_loop_err index pre c post acc e :
  Forall (fun c => exists z, candidate_zip c = Ok z) pre ->
  candidate_zip c = Err e ->
  find_unique_zipcodes_loop index (pre ++ c :: post) acc = Err e.
Proof.
  revert index acc. induction pre as [|p pre IH]; intros index acc Hf Hc; simpl app.
  - rewrite find_unique_zipcodes_loop_cons, Hc. reflexivity.
  - inversion Hf as [|? ? [z Hz] Hl]; subst.
    rewrite find_unique_zipcodes_loop_cons, Hz. simpl. now apply IH.
Qed.

(** X1. [find_unique_zipcodes] succeeds exactly when every candidate has a
    string "name" holding five consecutive digits; otherwise it raises the
    exception of the first candidate that has none (KeyError without
    "name", TypeError for a non-object candidate or a non-string name,
    AttributeError for a name without five digits). *)
Theorem find_unique_zipcodes_success_iff :
  (forall l, (exists idx, find_unique_zipcodes l = Ok idx)
             <-> Forall (fun c => exists z, candidate_zip c = Ok z) l)
  /\ (forall pre c post e,
        Forall (fun c => exists z, candidate_zip c = Ok z) pre ->
        candidate_zip c = Err e ->
        find_unique_zipcodes (pre ++ c :: post) = Err e).
Proof.
  split.
  - intros l. apply find_unique_zipcodes_loop_ok_iff.
  - intros pre c post e. apply find_unique_zipcodes_loop_err.
Qed.

Lemma find_unique_zipcodes_success_iff_witness :
  candidate_zip (JObj [("name", JNum 2118)]) = Err TypeError
  /\ find_unique_zipcodes
       [sample_candidate "10 Main St Boston, MA 02118"; JObj [("name", JNum 2118)];
        JObj []]
     = Err TypeError.
Proof.
  split; [reflexivity|].
  apply (proj2 find_unique_zipcodes_success_iff
           [sample_candidate "10 Main St Boston, MA 02118"] _ [JObj []]).
  - constructor; [eexists; vm_compute; reflexivity | constructor].
  - reflexivity.
Defined.

Lemma opt_app_add o i rest :
  opt_app (Some (match o with Some v => app v [i] | None => [i] end)) rest
  = opt_app o (i :: rest).
Proof. destruct o; simpl; [now rewrite <- app_assoc | reflexivity]. Qed.

Lemma find_unique_zipcodes_loop_lookup index l acc idx :
  find_unique_zipcodes_loop index l acc = Ok idx ->
  forall k, zip_lookup k idx = opt_app (zip_lookup k acc) (positions_from index l k).
Proof.
  revert index acc. induction l as [|c l IH]; intros index acc H k.
  - simpl in H. injection H as <-. simpl. destruct (zip_lookup k acc); simpl;
      [now rewrite app_nil_r | reflexivity].
  - rewrite find_unique_zipcodes_loop_cons in H.
    destruct (candidate_zip c) as [z|e] eqn:Hc; simpl in H; [|discriminate].
    assert (Hz : z <> "") by exact (five_digit_string_nonempty z (candidate_zip_five c z Hc)).
    apply String.eqb_neq in Hz as Hz'. rewrite Hz' in H. simpl in H.
    rewrite (IH _ _ H k). simpl. rewrite Hc, zip_lookup_add.
    rewrite (String.eqb_sym z k).
    destruct (String.eqb k z) eqn:E.
    + apply String.eqb_eq in E; subst. apply opt_app_add.
    + reflexivity.
Qed.

(** X2. On success, the index maps each key [k] to the increasing list of
    the positions of the candidates whose name's first five-digit run is
    [k], and has no entry for a key no candidate has. *)
Theorem find_unique_zipcodes_lookup l idx :
  find_unique_zipcodes l = Ok idx ->
  forall k, zip_lookup k idx =
            match zip_positions l k with [] => None | is => Some is end.
Proof.
  intros H k. rewrite (find_unique_zipcodes_loop_lookup 0 l [] idx H k).
  unfold zip_positions. destruct (positions_from 0 l k); reflexivity.
Qed.

Lemma find_unique_zipcodes_lookup_witness :
  find_unique_zipcodes sample_candidates = Ok [("02118", [0]); ("02119", [1; 2])]
  /\ zip_lookup "02119" [("02118", [0]); ("02119", [1; 2])]
     = match zip_positions sample_candidates "02119" with [] => None | is => Some is end.
Proof.
  split; [vm_compute; reflexivity|].
  apply find_unique_zipcodes_lookup. vm_compute. reflexivity.
Defined.

Lemma zip_add_keys x z i acc :
  In x (map fst (zip_add z i acc)) <-> x = z \/ In x (map fst acc).
Proof.
  induction acc as [|[k v] acc IH]; simpl.
  - intuition.
  - destruct (String.eqb z k) eqn:E; simpl.
    + apply String.eqb_eq in E; subst. intuition.
    + rewrite IH. intuition.
Qed.

Lemma zip_add_nodup z i acc :
  NoDup (map fst acc) -> NoDup (map fst (zip_add z i acc)).
Proof.
  induction acc as [|[k v] acc IH]; simpl; intros Hnd.
  - repeat constructor. intros [].
  - inversion Hnd as [|? ? Hn Hnd']; subst.
    destruct (String.eqb z k) eqn:E; simpl.
    + constructor; assumption.
    + constructor; [|now apply IH].
      rewrite zip_add_keys. intros [->|Hin]; [|contradiction].
      now rewrite String.eqb_refl in E.
Qed.

Lemma find_unique_zipcodes_loop_keys index l acc idx :
  find_unique_zipcodes_loop index l acc = Ok idx ->
  NoDup (map fst acc) -> Forall five_digit_string (map fst acc) ->
  NoDup (map fst idx) /\ Forall five_digit_string (map fst idx).
Proof.
  revert index acc. induction l as [|c l IH]; intros index acc H Hnd Hf.
  - simpl in H. injection H as <-. now split.
  - rewrite find_unique_zipcodes_loop_cons in H.
    destruct (candidate_zip c) as [z|e] eqn:Hc; simpl in H; [|discriminate].
    pose proof (candidate_zip_five c z Hc) as H5.
    pose proof (proj2 (String.eqb_neq z "") (five_digit_string_nonempty z H5)) as Hz.
    rewrite Hz in H. simpl in H.
    apply (IH _ _ H).
    + now apply zip_add_nodup.
    + apply Forall_forall. intros x Hx. apply zip_add_keys in Hx as [->|Hx]; [exact H5|].
      exact (proj1 (Forall_forall _ _) Hf x Hx).
Qed.

(** X3. On success, the index is a dict (no key twice) whose keys are
    five-digit strings. *)
Theorem find_unique_zipcodes_keys l idx :
  find_unique_zipcodes l = Ok idx ->
  NoDup (map fst idx) /\ Forall five_digit_string (map fst idx).
Proof.
  intros H. apply (find_unique_zipcodes_loop_keys 0 l [] idx H); constructor.
Qed.

Lemma find_unique_zipcodes_keys_witness :
  find_unique_zipcodes sample_candidates = Ok [("02118", [0]); ("02119", [1; 2])]
  /\ NoDup (map fst [("02118", [0]); ("02119", [1; 2])]).
Proof.
  assert (H : find_unique_zipcodes sample_candidates = Ok [("02118", [0]); ("02119", [1; 2])])
    by (vm_compute; reflexivity).
  split; [exact H|]. exact (proj1 (find_unique_zipcodes_keys _ _ H)).
Defined.

(** ** Disambiguation and the pipeline *)

Lemma list_getitem_in l i r : list_getitem l i = Ok r -> In r l.
Proof.
  unfold list_getitem. destruct (nth_error l i) eqn:E; [|discriminate].
  intros H; injection H as <-. eapply nth_error_In; eassumption.
Qed.

(** X4. [get_address_api_info] never builds a record of its own: what it
    returns is the empty dict or one of the records of the suggestion
    list. *)
Theorem get_address_api_info_result suggest address provided_zip_code r :
  get_address_api_info suggest address provided_zip_code = Ok r ->
  r = JObj [] \/ exists cands, body (suggest address) = JArr cands /\ In r cands.
Proof.
  unfold get_address_api_info.
  destruct (negb (Z.eqb (status_code (suggest address)) codes_ok)).
  { intros H; injection H as <-. now left. }
  destruct (negb (truthy (body (suggest address)))).
  { intros H; injection H as <-. now left. }
  destruct (body (suggest address)) as [| | | |cands|]; simpl; try discriminate.
  destruct (find_unique_zipcodes cands) as [idx|e]; simpl; [|discriminate].
  intros H.
  destruct (Nat.ltb 1 (length idx)).
  - destruct provided_zip_code as [z|]; [|discriminate].
    destruct (negb (String.eqb z "")); [|discriminate].
    destruct (zip_lookup z idx) as [is|].
    + destruct (first_index is) as [i|e]; simpl in H; [|discriminate].
      right. exists cands. split; [reflexivity|]. exact (list_getitem_in _ _ _ H).
    + injection H as <-. now left.
  - right. exists cands. split; [reflexivity|]. exact (list_getitem_in _ _ _ H).
Qed.

Lemma get_address_api_info_result_witness :
  get_address_api_info (sample_suggest sample_candidates) "10 Main St" (Some "02118")
    = Ok (sample_candidate "10 Main St Boston, MA 02118")
  /\ (sample_candidate "10 Main St Boston, MA 02118" = JObj []
      \/ exists cands, body (sample_suggest sample_candidates "10 Main St") = JArr cands
                       /\ In (sample_candidate "10 Main St Boston, MA 02118") cands).
Proof.
  assert (H : get_address_api_info (sample_suggest sample_candidates) "10 Main St" (Some "02118")
              = Ok (sample_candidate "10 Main St Boston, MA 02118"))
    by (vm_compute; reflexivity).
  split; [exact H|]. exact (get_address_api_info_result _ _ _ _ H).
Defined.

(** The exceptions one candidate can raise in [find_unique_zipcodes]. *)
Lemma candidate_zip_err c e :
  candidate_zip c = Err e -> e = KeyError \/ e = TypeError \/ e = AttributeError.
Proof.
  unfold candidate_zip, getitem.
  destruct c as [| | | | |fs]; simpl; try (intros H; inversion H; auto; fail).
  destruct (dict_lookup "name" fs) as [v|]; simpl; [|intros H; inversion H; auto].
  destruct v; simpl; try (intros H; inversion H; auto; fail).
  destruct (re_search_5digits (list_ascii_of_string s)); simpl; intros H; inversion H; auto.
Qed.

(** X5. [get_address_api_info] raises MultipleAddressError only when the
    suggestion list is a JSON array whose index has two keys or more and
    the provided zip code is None or the empty string. *)
Theorem get_address_api_info_multiple_only suggest address provided_zip_code :
  get_address_api_info suggest address provided_zip_code = Err MultipleAddressError ->
  (provided_zip_code = None \/ provided_zip_code = Some "")
  /\ exists cands idx, body (suggest address) = JArr cands
                      /\ find_unique_zipcodes cands = Ok idx /\ 1 < length idx.
Proof.
  unfold get_address_api_info.
  destruct (negb (Z.eqb (status_code (suggest address)) codes_ok)); [discriminate|].
  destruct (negb (truthy (body (suggest address)))); [discriminate|].
  destruct (body (suggest address)) as [| | | |cands|]; simpl; try discriminate.
  destruct (find_unique_zipcodes cands) as [idx|e] eqn:Hf; simpl; [|intros H; injection H as ->].
  - destruct (Nat.ltb 1 (length idx)) eqn:Hl.
    + apply Nat.ltb_lt in Hl. intros H. split.
      * destruct provided_zip_code as [z|]; [|now left].
        destruct (String.eqb z "") eqn:Ez; simpl in H.
        -- apply String.eqb_eq in Ez; subst. now right.
        -- destruct (zip_lookup z idx) as [is|] eqn:Hk; [|discriminate].
           destruct is as [|i is]; simpl in H; [discriminate|].
           unfold list_getitem in H. destruct (nth_error cands i); discriminate.
      * exists cands, idx. auto.
    + unfold list_getitem. destruct (nth_error cands 0); discriminate.
  - (* the index is built without raising MultipleAddressError *)
    exfalso. clear -Hf.
    revert Hf. unfold find_unique_zipcodes. generalize 0, (@nil (string * list nat)).
    induction cands as [|c cands IH]; intros i acc H; [discriminate|].
    rewrite find_unique_zipcodes_loop_cons in H.
    destruct (candidate_zip c) as [z|e'] eqn:Hc; simpl in H; [now apply IH in H|].
    injection H as ->. apply candidate_zip_err in Hc. intuition discriminate.
Qed.

Lemma get_address_api_info_multiple_only_witness :
  get_address_api_info (sample_suggest sample_candidates) "10 Main St" (Some "")
    = Err MultipleAddressError
  /\ (Some "" = None \/ Some "" = Some "").
Proof.
  assert (H : get_address_api_info (sample_suggest sample_candidates) "10 Main St" (Some "")
              = Err MultipleAddressError) by (vm_compute; reflexivity).
  split; [exact H|]. exact (proj1 (get_address_api_info_multiple_only _ _ _ H)).
Defined.

Lemma get_trash_day_data_request places h l :
  snd (get_trash_day_data places h l)
  = response_json (places (fst (get_trash_day_data places h l) l)).
Proof.
  unfold get_trash_day_data.
  destruct (dict_mem "name" (h l)); [destruct (dict_pop "name" (h l)) as [[v d]|]|];
    reflexivity.
Qed.

(** X6. When the address-suggest request fails (status other than 200) or
    answers an empty body, the pipeline raises InvalidAddressError,
    whatever the zip code. *)
Theorem get_trash_and_recycling_days_no_suggestion suggest places parse address zip_code :
  status_code (suggest address) <> codes_ok \/ truthy (body (suggest address)) = false ->
  get_trash_and_recycling_days suggest places parse address zip_code
  = Err InvalidAddressError.
Proof.
  intros H. unfold get_trash_and_recycling_days, get_address_api_info.
  destruct H as [H|H].
  - apply Z.eqb_neq in H. rewrite H. reflexivity.
  - destruct (Z.eqb (status_code (suggest address)) codes_ok); [|reflexivity].
    simpl. rewrite H. reflexivity.
Qed.

Lemma get_trash_and_recycling_days_no_suggestion_witness :
  get_trash_and_recycling_days (fun _ => mkResponse 503 JNull) sample_places sample_parse
    "10 Main St" (Some "02118") = Err InvalidAddressError.
Proof.
  apply get_trash_and_recycling_days_no_suggestion. left. discriminate.
Defined.

(** X7. When the pipeline returns days, the chosen record is a dict with a
    string "name" that passed [validate_found_address] against the user's
    address, and the days are the parse of the places answer to that dict
    after its in-place rename. *)
Theorem get_trash_and_recycling_days_ok suggest places parse address zip_code days :
  get_trash_and_recycling_days suggest places parse address zip_code = Ok days ->
  exists d name,
    get_address_api_info suggest address zip_code = Ok (JObj d)
    /\ dict_lookup "name" d = Some (JStr name)
    /\ validate_found_address parse name address = Ok true
    /\ get_trash_days_from_trash_data (response_json (places (renamed_params places d)))
       = Ok days.
Proof.
  unfold get_trash_and_recycling_days.
  destruct (get_address_api_info suggest address zip_code) as [r|e]; simpl; [|discriminate].
  destruct (truthy r); simpl; [|discriminate].
  destruct r as [| | | | |d]; simpl; try discriminate.
  destruct (dict_lookup "name" d) as [nm|] eqn:Hn; simpl; [|discriminate].
  destruct nm as [| | |name| |]; simpl; try discriminate.
  destruct (validate_found_address parse name address) as [[|]|e] eqn:Hv; simpl;
    try discriminate.
  destruct (truthy _); simpl; [|discriminate].
  intros H. exists d, name. repeat split; assumption.
Qed.

Lemma get_trash_and_recycling_days_ok_witness :
  let suggest := sample_suggest [sample_candidate "10 Main Rd Boston, MA 02118"] in
  let places := fun (_ : dict) =>
    mkResponse 200 (schedule_with_title (JStr "4 - Tuesday &Friday")) in
  let parse := fun s =>
    if String.eqb s "10 Main Road" then mkParsedAddress (Some "10") (Some "Main") (Some "Road")
    else mkParsedAddress (Some "10") (Some "Main") (Some "Rd") in
  get_trash_and_recycling_days suggest places parse "10 Main Road" None = Ok ["Tuesday"; "Friday"]
  /\ exists d name,
       get_address_api_info suggest "10 Main Road" None = Ok (JObj d)
       /\ dict_lookup "name" d = Some (JStr name)
       /\ validate_found_address parse name "10 Main Road" = Ok true
       /\ get_trash_days_from_trash_data (response_json (places (renamed_params places d)))
          = Ok ["Tuesday"; "Friday"].
Proof.
  intros suggest places parse.
  assert (H : get_trash_and_recycling_days suggest places parse "10 Main Road" None
              = Ok ["Tuesday"; "Friday"]) by (vm_compute; reflexivity).
  split; [exact H|]. exact (get_trash_and_recycling_days_ok _ _ _ _ _ _ H).
Defined.

(** X8. For a chosen record with a string "name": a rejection by the
    validator gives InvalidAddressError; an accepted record whose places
    request fails (status other than 200) gives BadAPIResponse. *)
Theorem get_trash_and_recycling_days_after_choice suggest places parse address zip_code d name :
  get_address_api_info suggest address zip_code = Ok (JObj d) ->
  dict_lookup "name" d = Some (JStr name) ->
  (validate_found_address parse name address = Ok false ->
   get_trash_and_recycling_days suggest places parse address zip_code = Err InvalidAddressError)
  /\ (validate_found_address parse name address = Ok true ->
      status_code (places (renamed_params places d)) <> codes_ok ->
      get_trash_and_recycling_days suggest places parse address zip_code = Err BadAPIResponse).
Proof.
  intros Ha Hn. unfold get_trash_and_recycling_days. rewrite Ha. cbn [bind].
  assert (Ht : truthy (JObj d) = true) by (destruct d; [discriminate | reflexivity]).
  rewrite Ht. cbn [negb bind getitem]. rewrite Hn. cbn [bind as_str]. split.
  - intros Hv. now rewrite Hv.
  - intros Hv Hs. rewrite Hv. simpl.
    unfold renamed_params, get_trash_day_data in Hs.
    unfold response_json. apply Z.eqb_neq in Hs. simpl in Hs. rewrite Hs. reflexivity.
Qed.

Lemma get_trash_and_recycling_days_after_choice_witness :
  get_address_api_info (sample_suggest sample_candidates) "10 Main St" (Some "02119")
    = Ok (sample_candidate "10 Main St Boston, MA 02119")
  /\ get_trash_and_recycling_days (sample_suggest sample_candidates)
       (fun _ => mkResponse 500 JNull)
       (fun _ => mkParsedAddress (Some "10") (Some "Main") (Some "St"))
       "10 Main St" (Some "02119") = Err BadAPIResponse.
Proof.
  assert (H : get_address_api_info (sample_suggest sample_candidates) "10 Main St" (Some "02119")
              = Ok (sample_candidate "10 Main St Boston, MA 02119")) by (vm_compute; reflexivity).
  split; [exact H|].
  apply (proj2 (get_trash_and_recycling_days_after_choice _ _ _ _ _ _
                  "10 Main St Boston, MA 02119" H eq_refl)).
  - vm_compute. reflexivity.
  - discriminate.
Defined.

(** ** The validator *)

(** X9. The validator accepts only when the house numbers are equal, both
    street names are present and equal up to case, and both street types
    are present. *)
Theorem validate_found_address_accept parse found user :
  validate_found_address parse found user = Ok true ->
  house (parse found) = house (parse user)
  /\ exists n1 n2 A B,
       street_name (parse found) = Some n1 /\ street_name (parse user) = Some n2
       /\ str_lower n1 = str_lower n2
       /\ street_type (parse found) = Some A /\ street_type (parse user) = Some B.
Proof.
  unfold validate_found_address.
  destruct (parse found) as [h1 n1 t1], (parse user) as [h2 n2 t2]; simpl.
  destruct (opt_str_eqb h1 h2) eqn:Eh; simpl; [|discriminate].
  apply opt_str_eqb_true in Eh.
  destruct n1 as [n1|], n2 as [n2|]; simpl; try discriminate.
  destruct (String.eqb (str_lower n1) (str_lower n2)) eqn:En; simpl; [|discriminate].
  apply String.eqb_eq in En.
  destruct t1 as [A|]; simpl; [|discriminate].
  destruct (str_in "rd" (str_lower A)); simpl.
  - destruct t2 as [B|]; simpl; [|discriminate].
    intros _. split; [exact Eh|]. exists n1, n2, A, B. auto.
  - destruct t2 as [B|]; simpl; [|discriminate].
    intros _. split; [exact Eh|]. exists n1, n2, A, B. auto.
Qed.

Lemma validate_found_address_accept_witness :
  validate_found_address sample_parse "10 Main Rd" "10 Main Road" = Ok true
  /\ house (sample_parse "10 Main Rd") = house (sample_parse "10 Main Road").
Proof.
  assert (H : validate_found_address sample_parse "10 Main Rd" "10 Main Road" = Ok true)
    by (vm_compute; reflexivity).
  split; [exact H|]. exact (proj1 (validate_found_address_accept _ _ _ H)).
Defined.

(** X10. The only exception the validator raises is AttributeError (a
    missing street name or street type reaching [.lower()]). *)
Theorem validate_found_address_err parse found user e :
  validate_found_address parse found user = Err e -> e = AttributeError.
Proof.
  unfold validate_found_address.
  destruct (parse found) as [h1 n1 t1], (parse user) as [h2 n2 t2]; simpl.
  destruct (opt_str_eqb h1 h2); simpl; [|discriminate].
  destruct n1 as [n1|], n2 as [n2|]; simpl; try (intros H; injection H; auto; fail).
  destruct (String.eqb (str_lower n1) (str_lower n2)); simpl; [|discriminate].
  destruct t1 as [A|]; simpl; [|intros H; injection H; auto].
  destruct (str_in "rd" (str_lower A)); simpl;
    (destruct t2 as [B|]; simpl; [|intros H; injection H; auto]).
  - destruct (str_in "road" (str_lower B)); simpl; [discriminate|].
    destruct (negb _ && negb _); discriminate.
  - destruct (negb _ && negb _); discriminate.
Qed.

Lemma validate_found_address_err_witness :
  validate_found_address sample_parse "Main St" "Main Street" = Err AttributeError.
Proof.
  destruct (validate_found_address sample_parse "Main St" "Main Street") as [b|e] eqn:E.
  - vm_compute in E. discriminate.
  - f_equal. exact (validate_found_address_err _ _ _ _ E).
Defined.

Lemma is_prefix_refl s : is_prefix s s = true.
Proof. induction s as [|c s IH]; simpl; [reflexivity|]. now rewrite Ascii.eqb_refl, IH. Qed.

Lemma str_in_refl s : str_in s s = true.
Proof.
  unfold str_in. destruct (list_ascii_of_string s) as [|c l]; simpl; [reflexivity|].
  now rewrite Ascii.eqb_refl, is_prefix_refl.
Qed.

(** X11. A candidate whose parse equals the user's parse, with every field
    present, is accepted; in particular an address validates against
    itself. *)
Theorem validate_found_address_same parse found user h n t :
  parse found = mkParsedAddress (Some h) (Some n) (Some t) ->
  parse user = mkParsedAddress (Some h) (Some n) (Some t) ->
  validate_found_address parse found user = Ok true.
Proof.
  intros Hf Hu. unfold validate_found_address. rewrite Hf, Hu. simpl.
  rewrite !String.eqb_refl. simpl.
  destruct (str_in "rd" (str_lower t)); simpl;
    [destruct (str_in "road" (str_lower t)); simpl; [reflexivity|]|];
    rewrite str_in_refl; reflexivity.
Qed.

Lemma validate_found_address_same_witness :
  validate_found_address sample_parse "10 Main Road" "10 Main Road" = Ok true.
Proof. apply (validate_found_address_same _ _ _ "10" "Main" "Road"); reflexivity. Defined.

(** ** The schedule parser *)

Lemma split_ws_aux_words (P : ascii -> Prop) cur s :
  (forall c, P c <-> is_space c = false /\ c <> "&"%char) ->
  Forall P cur -> Forall (fun c => c <> "&"%char) s ->
  Forall (fun w => w <> [] /\ Forall P w) (split_ws_aux cur s).
Proof.
  intros HP. revert cur. induction s as [|c s IH]; intros cur Hcur Hs; simpl.
  - destruct cur as [|x cur']; [constructor|].
    constructor; [|constructor]. split.
    + simpl. destruct (rev cur'); discriminate.
    + now apply Forall_rev.
  - inversion Hs as [|? ? Hc Hs']; subst.
    destruct (is_space c) eqn:Esp.
    + destruct cur as [|x cur'].
      * apply IH; [constructor | exact Hs'].
      * constructor.
        -- split; [simpl; destruct (rev cur'); discriminate | now apply Forall_rev].
        -- apply IH; [constructor | exact Hs'].
    + apply IH; [|exact Hs']. constructor; [|exact Hcur]. apply HP. now split.
Qed.

Lemma remove_amp_no_amp s : Forall (fun c => c <> "&"%char) (remove_amp s).
Proof.
  apply Forall_forall. intros c Hc. unfold remove_amp in Hc.
  apply filter_In in Hc as [_ Hc]. intros ->. discriminate.
Qed.

(** X12. Every day name returned by [get_trash_days_from_trash_data] is
    non-empty and holds neither a whitespace character nor "&". *)
Theorem get_trash_days_from_trash_data_words trash_data days :
  get_trash_days_from_trash_data trash_data = Ok days ->
  Forall (fun d => d <> ""
                   /\ Forall (fun c => is_space c = false /\ c <> "&"%char)
                             (list_ascii_of_string d)) days.
Proof.
  unfold get_trash_days_from_trash_data.
  destruct (getitem trash_data "next_event") as [ne|e]; simpl;
    [|destruct e; intros H; discriminate H].
  destruct (getitem ne "zone") as [zn|e]; simpl; [|destruct e; intros H; discriminate H].
  destruct (getitem zn "title") as [t|e]; simpl; [|destruct e; intros H; discriminate H].
  destruct (as_str t) as [s|e]; simpl; [|destruct e; intros H; discriminate H].
  intros H; injection H as <-. unfold str_split.
  rewrite list_ascii_of_string_of_list_ascii.
  pose proof (split_ws_aux_words (fun c => is_space c = false /\ c <> "&"%char) []
    (remove_amp (list_ascii_of_string
       (string_of_list_ascii (re_sub_day_code (list_ascii_of_string s)))))
    (fun c => iff_refl _) (Forall_nil _) (remove_amp_no_amp _)) as Hw.
  apply Forall_map. eapply Forall_impl; [|exact Hw].
  intros w [Hne Hall]. rewrite list_ascii_of_string_of_list_ascii. split; [|exact Hall].
  destruct w; [contradiction | discriminate].
Qed.

Lemma get_trash_days_from_trash_data_words_witness :
  get_trash_days_from_trash_data (schedule_with_title (JStr "2 - Monday &Thursday"))
    = Ok ["Monday"; "Thursday"]
  /\ Forall (fun d => d <> ""
                     /\ Forall (fun c => is_space c = false /\ c <> "&"%char)
                               (list_ascii_of_string d)) ["Monday"; "Thursday"].
Proof.
  assert (H : get_trash_days_from_trash_data (schedule_with_title (JStr "2 - Monday &Thursday"))
              = Ok ["Monday"; "Thursday"]) by (vm_compute; reflexivity).
  split; [exact H|]. exact (get_trash_days_from_trash_data_words _ _ H).
Defined.



Lemma day_code_after_digits_app ds tl rest :
  Forall (fun c => is_digit c = true) ds ->
  (tl = ["A"; " "; "-"; " "]%char \/ tl = [" "; "-"; " "]%char) ->
  day_code_after_digits (ds ++ tl ++ rest)%list = Some rest.
Proof.
  intros Hd Ht. induction Hd as [|c ds Hc Hds IH]; simpl.
  - destruct Ht as [-> | ->]; reflexivity.
  - now rewrite Hc.
Qed.

(** X14. The day-code removal deletes a day code (digits, an optional "A",
    then " - ") at the head of the title and goes on with the rest, and
    keeps every digit-free text unchanged. *)
Theorem re_sub_day_code_strip :
  (forall ds tl rest,
     ds <> [] -> Forall (fun c => is_digit c = true) ds ->
     (tl = ["A"; " "; "-"; " "]%char \/ tl = [" "; "-"; " "]%char) ->
     re_sub_day_code (ds ++ tl ++ rest)%list = re_sub_day_code rest)
  /\ (forall s t, Forall (fun c => is_digit c = false) s ->
       re_sub_day_code (s ++ t)%list = (s ++ re_sub_day_code t)%list).
Proof.
  split.
  - intros [|d ds] tl rest Hne Hd Ht; [contradiction|].
    simpl app. rewrite re_sub_day_code_cons.
    inversion Hd as [|? ? Hdd Hds]; subst.
    unfold day_code_at. rewrite Hdd.
    rewrite (day_code_after_digits_app ds tl rest Hds Ht). reflexivity.
  - intros s t Hs. induction Hs as [|c s Hc Hs IH]; [reflexivity|].
    simpl app. rewrite re_sub_day_code_cons. unfold day_code_at. rewrite Hc.
    now rewrite IH.
Qed.

Lemma re_sub_day_code_strip_witness :
  re_sub_day_code (list_ascii_of_string "12A - Monday") = list_ascii_of_string "Monday".
Proof.
  change (list_ascii_of_string "12A - Monday")
    with ((["1"; "2"]%char ++ ["A"; " "; "-"; " "]%char ++ list_ascii_of_string "Monday")%list).
  rewrite (proj1 re_sub_day_code_strip); [| discriminate | repeat constructor | now left].
  rewrite <- (app_nil_r (list_ascii_of_string "Monday")).
  rewrite (proj2 re_sub_day_code_strip); [reflexivity | repeat constructor].
Defined.

(** ** The fetcher *)

(** X15. Without a "name" key, [get_trash_day_data] leaves the heap as it
    is and sends the dict unchanged. *)
Theorem get_trash_day_data_no_name places h l :
  dict_lookup "name" (h l) = None ->
  get_trash_day_data places h l = (h, response_json (places (h l))).
Proof.
  intros H. unfold get_trash_day_data, dict_mem. now rewrite H.
Qed.

Lemma get_trash_day_data_no_name_witness :
  get_trash_day_data sample_places (heap_of [("formatted_address", JStr "10 Main St")]) 0
  = (heap_of [("formatted_address", JStr "10 Main St")],
     response_json (sample_places [("formatted_address", JStr "10 Main St")])).
Proof. apply get_trash_day_data_no_name. reflexivity. Defined.

(** X16. A second call of [get_trash_day_data] on the dict the first call
    renamed changes nothing: the dict no longer holds "name", so the
    second call leaves the heap as the first left it and sends the same
    request, getting the same answer. *)
Theorem get_trash_day_data_twice places h l :
  NoDup (map fst (h l)) ->
  get_trash_day_data places (fst (get_trash_day_data places h l)) l
  = get_trash_day_data places h l.
Proof.
  intros Hnd.
  assert (Hn : dict_lookup "name" (fst (get_trash_day_data places h l) l) = None).
  { unfold get_trash_day_data, dict_mem.
    destruct (dict_lookup "name" (h l)) as [v|] eqn:Hv; simpl; [|exact Hv].
    destruct (dict_pop_lookup "name" v (h l) Hnd Hv) as [d' [Hp [Hn _]]].
    rewrite Hp. unfold heap_upd. rewrite Nat.eqb_refl.
    rewrite dict_lookup_setitem_other by discriminate. exact Hn. }
  assert (Hno : forall h', dict_lookup "name" (h' l) = None ->
            get_trash_day_data places h' l = (h', response_json (places (h' l))))
    by (intros h' H; unfold get_trash_day_data, dict_mem; now rewrite H).
  rewrite (Hno _ Hn), <- (get_trash_day_data_request places h l).
  symmetry. apply surjective_pairing.
Qed.

Lemma get_trash_day_data_twice_witness :
  let h := heap_of [("name", JStr "10 Main St Boston, MA 02118");
                    ("formatted_address", JStr "old")] in
  fst (get_trash_day_data sample_places h 0) 0
    = [("formatted_address", JStr "10 Main St Boston, MA 02118")]
  /\ get_trash_day_data sample_places (fst (get_trash_day_data sample_places h 0)) 0
     = get_trash_day_data sample_places h 0.
Proof.
  intros h. split; [reflexivity|].
  apply get_trash_day_data_twice. simpl.
  repeat constructor; simpl; intuition discriminate.
Defined.

(** ** The zip code of [get_trash_day_info] *)

Lemma string_length_append (a b : string) :
  String.length (a ++ b) = String.length a + String.length b.
Proof. induction a as [|c a IH]; simpl; [reflexivity | now rewrite IH]. Qed.

Lemma zeros_length n :
  String.length (string_of_list_ascii (repeat "0"%char n)) = n.
Proof. now rewrite length_string_of_list_ascii, repeat_length. Qed.

Lemma py_zfill_length s w :
  String.length (py_zfill s w) = Nat.max w (String.length s).
Proof.
  unfold py_zfill.
  destruct (Nat.eqb (w - String.length s) 0) eqn:E.
  - apply Nat.eqb_eq in E. lia.
  - apply Nat.eqb_neq in E. destruct s as [|c s].
    + rewrite zeros_length. simpl in *. lia.
    + destruct (Ascii.eqb c "+"%char || Ascii.eqb c "-"%char); simpl;
        rewrite string_length_append, zeros_length; simpl in *; lia.
Qed.

(** X17. [s.zfill(w)] has length [max w (len s)]; a string of length at
    least [w] is unchanged; a shorter one gets '0's on the left, after its
    sign when it starts with '+' or '-'. *)
Theorem py_zfill_spec :
  (forall s w, String.length (py_zfill s w) = Nat.max w (String.length s))
  /\ (forall s w, w <= String.length s -> py_zfill s w = s)
  /\ (forall c s w, String.length (String c s) < w ->
        py_zfill (String c s) w =
        let zeros := string_of_list_ascii
                       (repeat "0"%char (w - String.length (String c s))) in
        if Ascii.eqb c "+"%char || Ascii.eqb c "-"%char
        then String c (zeros ++ s) else zeros ++ String c s).
Proof.
  split; [|split].
  - intros s w. unfold py_zfill.
    destruct (Nat.eqb (w - String.length s) 0) eqn:E.
    + apply Nat.eqb_eq in E. lia.
    + apply Nat.eqb_neq in E. destruct s as [|c s].
      * rewrite zeros_length. simpl in *. lia.
      * destruct (Ascii.eqb c "+"%char || Ascii.eqb c "-"%char); simpl;
          rewrite string_length_append, zeros_length; simpl in *; lia.
  - intros s w Hw. unfold py_zfill.
    replace (w - String.length s) with 0 by lia. reflexivity.
  - intros c s w Hw. unfold py_zfill.
    destruct (Nat.eqb (w - String.length (String c s)) 0) eqn:E.
    + apply Nat.eqb_eq in E. simpl in *. lia.
    + reflexivity.
Qed.

Lemma py_zfill_spec_witness :
  py_zfill "2118" 5 = "02118" /\ py_zfill "-42" 5 = "-0042".
Proof.
  destruct py_zfill_spec as [_ [_ H3]]. split.
  - rewrite (H3 "2"%char "118" 5); [reflexivity | simpl; lia].
  - rewrite (H3 "-"%char "42" 5); [reflexivity | simpl; lia].
Defined.

(** X18. In [get_trash_day_info], a non-empty "other" field of the parsed
    session address always determines the zip code, whatever the session
    holds: it is [other.zfill(5)], at least five characters long.  When
    that field is missing or empty, the zip code is the one stored in the
    session, or None. *)
Theorem trash_day_zip_code_source :
  (forall o session_zip, o <> "" ->
     trash_day_zip_code (Some o) session_zip = Some (py_zfill o 5)
     /\ 5 <= String.length (py_zfill o 5))
  /\ (forall other session_zip, other = None \/ other = Some "" ->
     trash_day_zip_code other session_zip = session_zip).
Proof.
  split.
  - intros o session_zip Ho. unfold trash_day_zip_code.
    apply String.eqb_neq in Ho. rewrite Ho. simpl. split; [reflexivity|].
    rewrite py_zfill_length. lia.
  - intros other session_zip [-> | ->]; reflexivity.
Qed.

Lemma trash_day_zip_code_source_witness :
  trash_day_zip_code (Some "2118") (Some "02119") = Some "02118"
  /\ trash_day_zip_code (Some "") (Some "02119") = Some "02119"
  /\ trash_day_zip_code None None = None.
Proof.
  destruct trash_day_zip_code_source as [H1 H2].
  split; [|split].
  - rewrite (proj1 (H1 "2118" (Some "02119") ltac:(discriminate))). reflexivity.
  - apply H2. now right.
  - apply H2. now left.
Defined.
